(** * SwagUp API client: request building and response handling

    A shallow embedding of [api.py].  The client is a thin wrapper over the
    [requests] library: every method builds a URL, a header dictionary and a
    payload, performs one HTTP call and passes the response to
    [_handle_response].

    Python dictionaries are finite maps ([gmap string _]), exceptions are the
    left summand of the outcome of a computation, and the only state is the
    client object plus the log of requests handed to the transport. *)

From stdpp Require Import gmap strings list fin_maps pretty.

Set Warnings "-register-all".

Local Open Scope Z_scope.

(** ** Python values *)

(** A Python [float] is an IEEE binary64 number.  The client never computes
    with one, it only forwards it, so a finite float is kept as the dyadic
    rational [significand * 2 ^ exponent] it denotes. *)
Record float64 := Float64 { significand : Z; exponent : Z }.

(** JSON-like Python values: what a payload dictionary may hold and what
    [Response.json()] may return. *)
Inductive value :=
| VNone
| VBool (b : bool)
| VInt (n : Z)
| VFloat (x : float64)
| VStr (s : string)
| VList (xs : list value)
| VDict (d : gmap string value).

(** [List[str]] arguments, as values. *)
Definition str_list (xs : list string) : value := VList (VStr <$> xs).

(** ** Exceptions *)

Inductive exn :=
| ValueError (msg : string)
| HTTPError (msg : string)
| JSONDecodeError (doc : string)
| ConnectionError (msg : string).

(** ** The transport: requests and responses of the [requests] library *)

Inductive verb := GET | POST | DELETE.

Record Request := {
  req_method : verb;
  req_url : string;
  req_headers : gmap string string;
  req_json : option value;
  req_files : option (gmap string value)
}.

(** The body of a response: either bytes that decode as JSON to [v], or text
    that the JSON decoder rejects. *)
Inductive body :=
| JsonBody (v : value)
| RawBody (text : string).

Record Response := {
  status_code : Z;
  reason : string;
  url : string;
  content : body
}.

(** [Response.raise_for_status()] of [requests]: an [HTTPError] for the
    client-error and server-error ranges, nothing otherwise. *)
Definition raise_for_status (response : Response) : exn + unit :=
  if bool_decide (400 ≤ status_code response < 500) then
    inl (HTTPError (pretty (status_code response) +:+ " Client Error: "
                    +:+ reason response +:+ " for url: " +:+ url response))
  else if bool_decide (500 ≤ status_code response < 600) then
    inl (HTTPError (pretty (status_code response) +:+ " Server Error: "
                    +:+ reason response +:+ " for url: " +:+ url response))
  else inr ().

(** [Response.json()] of [requests]. *)
Definition json (response : Response) : exn + value :=
  match content response with
  | JsonBody v => inr v
  | RawBody text => inl (JSONDecodeError text)
  end.

(** The content type [requests] derives while preparing the body of a
    request ([PreparedRequest.prepare_body]): a [json=] argument announces
    JSON, a non-empty [files=] argument takes precedence and announces a
    multipart form with the boundary chosen for the encoding.  It becomes the
    [Content-Type] header unless the caller's headers already have one. *)
Definition prepare_content_type (boundary : string) (r : Request) : option string :=
  let content_type :=
    match req_json r with Some _ => Some "application/json"%string | None => None end in
  match req_files r with
  | Some files =>
      if bool_decide (dom files = ∅) then content_type
      else Some ("multipart/form-data; boundary=" +:+ boundary)
  | None => content_type
  end.

(** ** The client object and the world it runs in *)

Record SwagUpApiClient := { base_url : string; api_key : string }.

Definition __init__ (base_url api_key : string) : SwagUpApiClient :=
  {| base_url := base_url; api_key := api_key |}.

(** The state a method runs in: the attributes of the client object and the
    requests handed to the transport so far, oldest first. *)
Record World := { client : SwagUpApiClient; calls : list Request }.

Definition new_world (base_url api_key : string) : World :=
  {| client := __init__ base_url api_key; calls := [] |}.

(** ** Computations that may raise *)

Definition M (A : Type) : Type := World → (exn + A) * World.

Definition ret {A} (a : A) : M A := λ w, (inr a, w).
Definition raise {A} (e : exn) : M A := λ w, (inl e, w).
Definition lift {A} (r : exn + A) : M A := λ w, (r, w).

Definition bind {A B} (m : M A) (k : A → M B) : M B :=
  λ w, match m w with
       | (inl e, w') => (inl e, w')
       | (inr a, w') => k a w'
       end.

(** [try: m except E as e: h e], where [h] re-raises what the clause does
    not catch. *)
Definition try_except {A} (m : M A) (h : exn → M A) : M A :=
  λ w, match m w with
       | (inl e, w') => h e w'
       | (inr a, w') => (inr a, w')
       end.

Definition get_self : M SwagUpApiClient := λ w, (inr (client w), w).

Declare Scope py_scope.
Delimit Scope py_scope with py.
Notation "x <- c ;; k" := (bind c (λ x, k))
  (at level 100, c at next level, right associativity) : py_scope.
Notation "c ;; k" := (bind c (λ _, k))
  (at level 100, right associativity) : py_scope.
Local Open Scope py_scope.

Section Client.

(** The transport answers a request with a response or raises; its answer
    may depend on the requests it has already served. *)
Variable transport : list Request → Request → exn + Response.

Definition request (method : verb) (url : string) (headers : gmap string string)
    (json : option value) (files : option (gmap string value)) : M Response :=
  λ w, let r := {| req_method := method; req_url := url; req_headers := headers;
                   req_json := json; req_files := files |} in
       (transport (calls w) r,
        {| client := client w; calls := calls w ++ [r] |}).

Definition requests_post url headers json files : M Response :=
  request POST url headers json files.
Definition requests_get url headers : M Response :=
  request GET url headers None None.
Definition requests_delete url headers : M Response :=
  request DELETE url headers None None.

(** ** [SwagUpApiClient._handle_response] *)

Definition _handle_response (response : Response) : M value :=
  try_except
    (lift (raise_for_status response) ;;
     lift (json response))
    (λ e, match e with
          | HTTPError _ =>
              if bool_decide (status_code response = 400) then
                raise (ValueError "Bad request. Please check your input.")
              else if bool_decide (status_code response = 401) then
                raise (ValueError "Unauthorized. Please check your API key.")
              else if bool_decide (status_code response = 404) then
                raise (ValueError "Resource not found.")
              else
                raise (ValueError ("Request failed with status code: "
                                   +:+ pretty (status_code response)))
          | _ => raise e
          end).

(** ** The ten operations *)

Definition create_design (designer_id design_name design_description : string)
    (categories tags : list string) (price : float64) : M value :=
  self <- get_self ;;
  let url := base_url self +:+ "/designs" in
  let headers : gmap string string := {[ "X-SwagUp-API-Key" := api_key self ]} in
  let payload : gmap string value :=
    {[ "designerId" := VStr designer_id;
       "designName" := VStr design_name;
       "designDescription" := VStr design_description;
       "categories" := str_list categories;
       "tags" := str_list tags;
       "price" := VFloat price ]} in
  response <- requests_post url headers (Some (VDict payload)) None ;;
  _handle_response response.

Definition upload_image (image : string) : M value :=
  self <- get_self ;;
  let url := base_url self +:+ "/images" in
  let headers : gmap string string := {[ "X-SwagUp-API-Key" := api_key self ]} in
  let files : gmap string value := {[ "image" := VStr image ]} in
  response <- requests_post url headers None (Some files) ;;
  _handle_response response.

Definition get_design_details (design_id : string) : M value :=
  self <- get_self ;;
  let url := base_url self +:+ "/designs/" +:+ design_id in
  let headers : gmap string string := {[ "X-SwagUp-API-Key" := api_key self ]} in
  response <- requests_get url headers ;;
  _handle_response response.

Definition choose_logo_color (color : value) (design_id : string) : M value :=
  self <- get_self ;;
  let url := base_url self +:+ "/logo-color" in
  let headers : gmap string string := {[ "X-SwagUp-API-Key" := api_key self ]} in
  let payload : gmap string value :=
    {[ "color" := color; "designId" := VStr design_id ]} in
  response <- requests_post url headers (Some (VDict payload)) None ;;
  _handle_response response.

Definition select_size_and_quantity (design_id : string) (items : list value) : M value :=
  self <- get_self ;;
  let url := base_url self +:+ "/orders/sizes-quantity" in
  let headers : gmap string string := {[ "X-SwagUp-API-Key" := api_key self ]} in
  let payload : gmap string value :=
    {[ "designId" := VStr design_id; "items" := VList items ]} in
  response <- requests_post url headers (Some (VDict payload)) None ;;
  _handle_response response.

Definition set_shipping_destination (design_id : string) (address : value) : M value :=
  self <- get_self ;;
  let url := base_url self +:+ "/orders/shipping" in
  let headers : gmap string string := {[ "X-SwagUp-API-Key" := api_key self ]} in
  let payload : gmap string value :=
    {[ "designId" := VStr design_id; "address" := address ]} in
  response <- requests_post url headers (Some (VDict payload)) None ;;
  _handle_response response.

Definition manage_payment_methods (payment_method : value) : M value :=
  self <- get_self ;;
  let url := base_url self +:+ "/payment-methods" in
  let headers : gmap string string := {[ "X-SwagUp-API-Key" := api_key self ]} in
  let payload : gmap string value := {[ "paymentMethod" := payment_method ]} in
  response <- requests_post url headers (Some (VDict payload)) None ;;
  _handle_response response.

Definition place_order (design_id payment_method_id : string) : M value :=
  self <- get_self ;;
  let url := base_url self +:+ "/orders" in
  let headers : gmap string string := {[ "X-SwagUp-API-Key" := api_key self ]} in
  let payload : gmap string value :=
    {[ "designId" := VStr design_id; "paymentMethodId" := VStr payment_method_id ]} in
  response <- requests_post url headers (Some (VDict payload)) None ;;
  _handle_response response.

Definition track_order (order_id : string) : M value :=
  self <- get_self ;;
  let url := base_url self +:+ "/orders/" +:+ order_id in
  let headers : gmap string string := {[ "X-SwagUp-API-Key" := api_key self ]} in
  response <- requests_get url headers ;;
  _handle_response response.

Definition cancel_order (order_id : string) : M value :=
  self <- get_self ;;
  let url := base_url self +:+ "/orders/" +:+ order_id in
  let headers : gmap string string := {[ "X-SwagUp-API-Key" := api_key self ]} in
  response <- requests_delete url headers ;;
  _handle_response response.

End Client.

(** ** Calls and sessions *)

(** One invocation of a client method, with its arguments. *)
Inductive call :=
| CreateDesign (designer_id design_name design_description : string)
    (categories tags : list string) (price : float64)
| UploadImage (image : string)
| GetDesignDetails (design_id : string)
| ChooseLogoColor (color : value) (design_id : string)
| SelectSizeAndQuantity (design_id : string) (items : list value)
| SetShippingDestination (design_id : string) (address : value)
| ManagePaymentMethods (payment_method : value)
| PlaceOrder (design_id payment_method_id : string)
| TrackOrder (order_id : string)
| CancelOrder (order_id : string).

Definition invoke (transport : list Request → Request → exn + Response)
    (c : call) : M value :=
  match c with
  | CreateDesign designer_id design_name design_description categories tags price =>
      create_design transport designer_id design_name design_description
        categories tags price
  | UploadImage image => upload_image transport image
  | GetDesignDetails design_id => get_design_details transport design_id
  | ChooseLogoColor color design_id => choose_logo_color transport color design_id
  | SelectSizeAndQuantity design_id items =>
      select_size_and_quantity transport design_id items
  | SetShippingDestination design_id address =>
      set_shipping_destination transport design_id address
  | ManagePaymentMethods payment_method =>
      manage_payment_methods transport payment_method
  | PlaceOrder design_id payment_method_id =>
      place_order transport design_id payment_method_id
  | TrackOrder order_id => track_order transport order_id
  | CancelOrder order_id => cancel_order transport order_id
  end.

(** A caller that issues the calls one after the other on the same client,
    whatever each of them returns or raises. *)
Fixpoint session (transport : list Request → Request → exn + Response)
    (cs : list call) (w : World) : World :=
  match cs with
  | [] => w
  | c :: cs' => session transport cs' (snd (invoke transport c w))
  end.

(** ** The operation table of the specification *)

(** A path template: literal text and holes for the path parameter. *)
Inductive segment :=
| Lit (s : string)
| Param.

Fixpoint instantiate (template : list segment) (arg : string) : string :=
  match template with
  | [] => ""
  | Lit s :: rest => s +:+ instantiate rest arg
  | Param :: rest => arg +:+ instantiate rest arg
  end.

(** Verb and path template of each operation, row by row. *)
Definition spec_route (c : call) : verb * list segment :=
  match c with
  | CreateDesign _ _ _ _ _ _ => (POST, [Lit "/designs"])
  | UploadImage _ => (POST, [Lit "/images"])
  | GetDesignDetails _ => (GET, [Lit "/designs/"; Param])
  | ChooseLogoColor _ _ => (POST, [Lit "/logo-color"])
  | SelectSizeAndQuantity _ _ => (POST, [Lit "/orders/sizes-quantity"])
  | SetShippingDestination _ _ => (POST, [Lit "/orders/shipping"])
  | ManagePaymentMethods _ => (POST, [Lit "/payment-methods"])
  | PlaceOrder _ _ => (POST, [Lit "/orders"])
  | TrackOrder _ => (GET, [Lit "/orders/"; Param])
  | CancelOrder _ => (DELETE, [Lit "/orders/"; Param])
  end.

(** The identifier a call supplies for the hole of its path template. *)
Definition path_argument (c : call) : string :=
  match c with
  | GetDesignDetails design_id => design_id
  | TrackOrder order_id => order_id
  | CancelOrder order_id => order_id
  | _ => ""
  end.

(** The JSON payload the specification declares for a call: the external
    camelCase keys with the arguments they carry, or [None] where the
    operation has no JSON body. *)
Definition spec_json_fields (c : call) : option (list (string * value)) :=
  match c with
  | CreateDesign designer_id design_name design_description categories tags price =>
      Some [("designerId", VStr designer_id);
            ("designName", VStr design_name);
            ("designDescription", VStr design_description);
            ("categories", str_list categories);
            ("tags", str_list tags);
            ("price", VFloat price)]
  | ChooseLogoColor color design_id =>
      Some [("color", color); ("designId", VStr design_id)]
  | SelectSizeAndQuantity design_id items =>
      Some [("designId", VStr design_id); ("items", VList items)]
  | SetShippingDestination design_id address =>
      Some [("designId", VStr design_id); ("address", address)]
  | ManagePaymentMethods payment_method =>
      Some [("paymentMethod", payment_method)]
  | PlaceOrder design_id payment_method_id =>
      Some [("designId", VStr design_id); ("paymentMethodId", VStr payment_method_id)]
  | UploadImage _ | GetDesignDetails _ | TrackOrder _ | CancelOrder _ => None
  end.

(** ** The failure taxonomy of the specification *)




(** ** The mocked transport of the test suite *)

#[global] Instance verb_eq_dec : EqDecision verb.
Proof. solve_decision. Defined.

(** [responses.add(method, url, ...)]: the registered response answers the
    matching requests, any other request finds no connection. *)
Definition responses_add (method : verb) (url : string) (response : Response)
    : list Request → Request → exn + Response :=
  λ _ r, if bool_decide (req_method r = method ∧ req_url r = url)
         then inr response
         else inl (ConnectionError "Connection refused by Responses").

Definition example_client : World := new_world "https://api.example.com" "your_api_key".

(** The arguments and the response of [test_create_design]. *)
Definition cool_cat : call :=
  CreateDesign "designer123" "Cool Cat" "Cat wearing sunglasses"
    ["Animals"; "Humor"]%string ["cat"; "cool"; "sunglasses"]%string
    (Float64 5626684784446013 (-48)).

Definition cool_cat_data : gmap string value :=
  {[ "designId" := VStr "123";
     "designerId" := VStr "designer123";
     "designName" := VStr "Cool Cat";
     "designDescription" := VStr "Cat wearing sunglasses";
     "categories" := str_list ["Animals"; "Humor"]%string;
     "tags" := str_list ["cat"; "cool"; "sunglasses"]%string;
     "price" := VFloat (Float64 5626684784446013 (-48));
     "timestamp" := VStr "2023-07-10T15:00:00Z" ]}.

Definition cool_cat_envelope : gmap string value :=
  {[ "status" := VStr "success";
     "message" := VStr "Design created successfully";
     "data" := VDict cool_cat_data ]}.

Definition respond (status : Z) (reason url : string) (content : body) : Response :=
  {| status_code := status; reason := reason; url := url; content := content |}.

(** What [test_create_design] asserts of the result: the fields of
    [CreateDesignResponse], read from [data]. *)
Definition cool_cat_expected : gmap string value :=
  {[ "design_id" := VStr "123";
     "designer_id" := VStr "designer123";
     "design_name" := VStr "Cool Cat";
     "design_description" := VStr "Cat wearing sunglasses";
     "categories" := str_list ["Animals"; "Humor"]%string;
     "tags" := str_list ["cat"; "cool"; "sunglasses"]%string;
     "price" := VFloat (Float64 5626684784446013 (-48));
     "design_url" := VStr "2023-07-10T15:00:00Z" ]}.

Definition designs_url : string := "https://api.example.com/designs".
Definition design_123_url : string := "https://api.example.com/designs/123".

Definition created_response : Response :=
  respond 200 "OK" designs_url (JsonBody (VDict cool_cat_envelope)).


Definition error_body (message : string) : body :=
  JsonBody (VDict {[ "status" := VStr "error"; "message" := VStr message ]}).

Definition server_error_response : Response :=
  respond 500 "Internal Server Error" design_123_url (error_body "Try again later").





(** * Properties *)

(** ** Strings *)

Lemma append_empty_r (s : string) : s +:+ "" = s.
Proof.
  induction s as [|a s IH]; [done |].
  change (String a (s +:+ "") = String a s). by rewrite IH.
Qed.

(** ** The response handler *)

(** The handler neither reads nor writes the world. *)
Lemma _handle_response_world response w :
  snd (_handle_response response w) = w.
Proof.
  unfold _handle_response, try_except, bind, lift, raise, raise_for_status, json.
  repeat (case_bool_decide; simpl; try done).
  all: by destruct (content response).
Qed.

Lemma _handle_response_outcome response w w' :
  fst (_handle_response response w) = fst (_handle_response response w').
Proof.
  unfold _handle_response, try_except, bind, lift, raise, raise_for_status, json.
  repeat (case_bool_decide; simpl; try done).
  all: by destruct (content response).
Qed.

Lemma _handle_response_run response w w' :
  _handle_response response w' = (fst (_handle_response response w), w').
Proof.
  rewrite (_handle_response_outcome response w w').
  rewrite <- (_handle_response_world response w') at 3.
  by destruct (_handle_response response w').
Qed.

(** What the handler returns or raises, by status code. *)
Lemma _handle_response_error response w :
  400 ≤ status_code response < 600 →
  fst (_handle_response response w) =
    inl (ValueError
      (if bool_decide (status_code response = 400) then
         "Bad request. Please check your input."
       else if bool_decide (status_code response = 401) then
         "Unauthorized. Please check your API key."
       else if bool_decide (status_code response = 404) then
         "Resource not found."
       else "Request failed with status code: " +:+ pretty (status_code response))).
Proof.
  intros Hs.
  unfold _handle_response, try_except, bind, lift, raise, raise_for_status.
  repeat (case_bool_decide; simpl; try done); lia.
Qed.

Lemma _handle_response_no_error response w :
  ¬ (400 ≤ status_code response < 600) →
  fst (_handle_response response w) = json response.
Proof.
  intros Hs.
  unfold _handle_response, try_except, bind, lift, raise, raise_for_status.
  repeat (case_bool_decide; simpl; try done); try lia.
  unfold json. by destruct (content response).
Qed.

(** ** The shape of a call *)

(** Every call hands exactly one request to the transport, fixed by the call
    and the client, and leaves the answer to the response handler. *)
Lemma invoke_run c w :
  ∃ r, ∀ transport,
    invoke transport c w =
      (match transport (calls w) r with
       | inl e => inl e
       | inr response => fst (_handle_response response w)
       end,
       {| client := client w; calls := calls w ++ [r] |}).
Proof.
  destruct c; eexists; intros transport;
    unfold invoke, create_design, upload_image, get_design_details,
      choose_logo_color, select_size_and_quantity, set_shipping_destination,
      manage_payment_methods, place_order, track_order, cancel_order,
      requests_post, requests_get, requests_delete, request, bind, get_self;
    simpl;
    lazymatch goal with
    | |- match transport _ ?sent with _ => _ end
         = (match transport _ ?r with _ => _ end, _) => unify r sent
    end;
    (destruct (transport _ _) as [e|response];
      [reflexivity | apply _handle_response_run]).
Qed.

Ltac unfold_call :=
  unfold invoke, create_design, upload_image, get_design_details,
    choose_logo_color, select_size_and_quantity, set_shipping_destination,
    manage_payment_methods, place_order, track_order, cancel_order,
    requests_post, requests_get, requests_delete, request, bind, get_self;
  simpl.

(** Closes [calls (snd (invoke transport c w)) = calls w ++ [?r]] for a call
    [c] whose method is known, fixing [?r]. *)
Ltac the_request transport :=
  unfold_call;
  destruct (transport _ _); simpl;
  rewrite ?_handle_response_world; reflexivity.

(** ** The client configuration is a frame *)

Lemma invoke_client transport c w :
  client (snd (invoke transport c w)) = client w.
Proof.
  destruct (invoke_run c w) as [r Hrun]. by rewrite Hrun.
Qed.

Lemma session_client transport cs w :
  client (session transport cs w) = client w.
Proof.
  revert w. induction cs as [|c cs IH]; intros w; simpl; [done |].
  by rewrite IH, invoke_client.
Qed.

(** C9.  The base address and the key are those given to the constructor
    after any sequence of calls on the client, whatever the transport answers
    and whether the calls return or raise. *)
Theorem configuration_is_immutable transport base key cs :
  base_url (client (session transport cs (new_world base key))) = base ∧
  api_key (client (session transport cs (new_world base key))) = key ∧
  ∀ c w, client (snd (invoke transport c w)) = client w.
Proof.
  rewrite session_client. split_and!; [done | done |].
  intros c w. apply invoke_client.
Qed.

(** ** The outbound request *)

(** C6.  Every call sends one request, whose verb is the one of the operation
    table and whose URL is the base address followed by the path template of
    the table with the identifier put in the hole as it is. *)
Theorem request_follows_operation_table transport c w :
  ∃ r, calls (snd (invoke transport c w)) = calls w ++ [r] ∧
       req_method r = fst (spec_route c) ∧
       req_url r =
         base_url (client w) +:+ instantiate (snd (spec_route c)) (path_argument c).
Proof.
  destruct c; eexists; (split; [the_request transport |]);
    simpl; by rewrite !append_empty_r.
Qed.

(** C7.  Every call sends its request with the header [X-SwagUp-API-Key]
    bound to the key of the client, which is the key given to the
    constructor however many calls came before. *)
Theorem request_carries_api_key transport c :
  (∀ w, ∃ r, calls (snd (invoke transport c w)) = calls w ++ [r] ∧
             req_headers r = {[ "X-SwagUp-API-Key" := api_key (client w) ]}) ∧
  (∀ base key cs,
     ∃ r, calls (snd (invoke transport c (session transport cs (new_world base key))))
            = calls (session transport cs (new_world base key)) ++ [r] ∧
          req_headers r = {[ "X-SwagUp-API-Key" := key ]}).
Proof.
  assert (∀ w, ∃ r, calls (snd (invoke transport c w)) = calls w ++ [r] ∧
             req_headers r = {[ "X-SwagUp-API-Key" := api_key (client w) ]}) as Hkey
    by (intros w; destruct c; eexists; (split; [the_request transport | done])).
  split; [exact Hkey |].
  intros base key cs.
  destruct (Hkey (session transport cs (new_world base key))) as (r & Hsent & Hheaders).
  exists r. split; [exact Hsent |]. by rewrite Hheaders, session_client.
Qed.

(** C5.  Where the specification declares a JSON payload, the request body is
    a dictionary with exactly the declared keys, each bound to the declared
    argument; where it declares none, the request has no JSON body. *)
Theorem json_payload_matches_declaration transport c w :
  ∃ r, calls (snd (invoke transport c w)) = calls w ++ [r] ∧
       match spec_json_fields c with
       | Some fields =>
           NoDup fields.*1 ∧
           ∃ d, req_json r = Some (VDict d) ∧
                dom d = list_to_set fields.*1 ∧
                ∀ k v, d !! k = Some v ↔ (k, v) ∈ fields
       | None => req_json r = None
       end.
Proof.
  destruct c; eexists; (split; [the_request transport |]); simpl; try done.
  all: assert (Hnd : ∀ ks : list string, bool_decide (NoDup ks) = true → NoDup ks)
         by (intros ks; apply bool_decide_eq_true_1).
  all: lazymatch goal with
       | |- NoDup ?ks ∧ _ =>
           assert (NoDup ks) as Hkeys by (apply Hnd; vm_compute; reflexivity)
       end.
  all: split; [exact Hkeys |]; eexists; split; [reflexivity |]; split;
       [ rewrite ?dom_insert_L, ?dom_singleton_L; clear; set_solver
       | intros k v; symmetry;
         lazymatch goal with
         | |- _ ∈ ?fields ↔ _ =>
             exact (elem_of_list_to_map (M:=gmap string) fields k v Hkeys)
         end ].
Qed.

(** C8.  An image upload is a POST whose only payload is the multipart file
    field [image]: it has no JSON body, the client sets no content type of
    its own among the headers, and the content type derived for the request
    is a multipart form, whatever the image and the boundary. *)
Theorem upload_image_is_multipart transport image w boundary :
  ∃ r, calls (snd (invoke transport (UploadImage image) w)) = calls w ++ [r] ∧
       req_method r = POST ∧
       req_files r = Some {[ "image" := VStr image ]} ∧
       req_json r = None ∧
       dom (req_headers r) = {[ "X-SwagUp-API-Key" ]} ∧
       prepare_content_type boundary r =
         Some ("multipart/form-data; boundary=" +:+ boundary).
Proof.
  eexists; (split; [the_request transport |]).
  by split_and!.
Qed.

(** ** The outcome of a call *)




(** ** Reading exceptions in the taxonomy *)







(** ** The calls of the test suite and their neighbours *)







(** C1 fails on the code.  On the call and the response of
    [test_create_design] the client returns the whole envelope: [status] and
    [message] are keys of the result, the design id is not a field of it, and
    it is not the record the test asserts. *)
Theorem create_design_returns_whole_envelope :
  fst (invoke (responses_add POST designs_url created_response)
         cool_cat example_client)
    = inr (VDict cool_cat_envelope) ∧
  cool_cat_envelope !! "status" = Some (VStr "success") ∧
  cool_cat_envelope !! "message" = Some (VStr "Design created successfully") ∧
  cool_cat_envelope !! "data" = Some (VDict cool_cat_data) ∧
  cool_cat_envelope !! "design_id" = None ∧
  cool_cat_envelope !! "designId" = None ∧
  cool_cat_expected !! "design_id" = cool_cat_data !! "designId" ∧
  VDict cool_cat_envelope ≠ VDict cool_cat_expected ∧
  VDict cool_cat_envelope ≠ VDict cool_cat_data.
Proof.
  split_and!; try reflexivity.
  - intros Heq.
    apply (f_equal (λ v, match v with VDict d => d !! "design_id" | _ => None end)) in Heq.
    discriminate Heq.
  - intros Heq.
    apply (f_equal (λ v, match v with VDict d => d !! "designId" | _ => None end)) in Heq.
    discriminate Heq.
Qed.

(** * Further properties of the client *)

(** ** Failures of the transport *)



(** ** Sessions *)

(** The request of a call is fixed by the call and the attributes of the
    client: the log and the transport have no part in it. *)
Lemma invoke_run_client c cl :
  ∃ r, ∀ transport w,
    client w = cl →
    invoke transport c w =
      (match transport (calls w) r with
       | inl e => inl e
       | inr response => fst (_handle_response response w)
       end,
       {| client := cl; calls := calls w ++ [r] |}).
Proof.
  destruct c; eexists; intros transport w Hcl; unfold_call; rewrite Hcl;
    lazymatch goal with
    | |- match transport _ ?sent with _ => _ end
         = (match transport _ ?r with _ => _ end, _) => unify r sent
    end;
    (destruct (transport _ _) as [e|response];
      [reflexivity | apply _handle_response_run]).
Qed.

(** X2.  A session hands one request per call to the transport, in the order
    of the calls and after the requests already logged, whatever the calls
    return or raise: nothing is retried, skipped or rewritten, and each
    request is the one its call sends on this client from any log. *)
Theorem session_sends_one_request_per_call transport cs w :
  ∃ rs, calls (session transport cs w) = calls w ++ rs ∧
        Forall2 (λ c r, ∀ transport' w',
                   client w' = client w →
                   calls (snd (invoke transport' c w')) = calls w' ++ [r]) cs rs.
Proof.
  revert w. induction cs as [|c cs IH]; intros w; simpl.
  - exists []. split; [by rewrite app_nil_r | constructor].
  - destruct (invoke_run_client c (client w)) as [r Hrun].
    rewrite (Hrun transport w eq_refl). simpl.
    destruct (IH {| client := client w; calls := calls w ++ [r] |}) as (rs & Hrs & Hall).
    exists (r :: rs). simpl in Hrs, Hall. split.
    + by rewrite Hrs, <- app_assoc.
    + constructor; [| exact Hall].
      intros transport' w' Hcl. by rewrite (Hrun transport' w' Hcl).
Qed.

Lemma invoke_request_configured transport c w :
  ∃ r, calls (snd (invoke transport c w)) = calls w ++ [r] ∧
       req_headers r = {[ "X-SwagUp-API-Key" := api_key (client w) ]} ∧
       ∃ path, req_url r = base_url (client w) +:+ path.
Proof.
  destruct c; eexists; (split; [the_request transport |]);
    (split; [done | eexists; reflexivity]).
Qed.

Lemma session_preserves_configured transport base key cs w :
  base_url (client w) = base →
  api_key (client w) = key →
  Forall (λ r, req_headers r = {[ "X-SwagUp-API-Key" := key ]} ∧
               ∃ path, req_url r = base +:+ path) (calls w) →
  Forall (λ r, req_headers r = {[ "X-SwagUp-API-Key" := key ]} ∧
               ∃ path, req_url r = base +:+ path) (calls (session transport cs w)).
Proof.
  revert w. induction cs as [|c cs IH]; intros w Hbase Hkey Hlog; simpl; [done |].
  destruct (invoke_request_configured transport c w) as (r & Hsent & Hheaders & Hurl).
  apply IH.
  - by rewrite invoke_client.
  - by rewrite invoke_client.
  - rewrite Hsent. apply Forall_app. split; [done |].
    apply Forall_singleton. by rewrite Hheaders, Hkey, <- Hbase.
Qed.

(** X3.  Every request of a session on a new client goes to a URL that
    starts with the base address of the constructor and has for headers the
    key of the constructor under [X-SwagUp-API-Key], and nothing else. *)
Theorem session_requests_are_configured transport base key cs :
  Forall (λ r, req_headers r = {[ "X-SwagUp-API-Key" := key ]} ∧
               ∃ path, req_url r = base +:+ path)
    (calls (session transport cs (new_world base key))).
Proof. by apply session_preserves_configured. Qed.

(** ** The response handler, status by status *)


(** X5.  The handler returns [v] exactly when the status is outside 400 to
    599 and the body decodes to [v]: the decoded body comes back whole,
    whether it is an envelope, another dictionary or no dictionary at all,
    and also for the statuses below 200 and from 300 to 399. *)
Theorem returns_iff_decodable response w v :
  fst (_handle_response response w) = inr v
  ↔ ¬ (400 ≤ status_code response < 600) ∧ content response = JsonBody v.
Proof.
  split.
  - intros Hret.
    destruct (decide (400 ≤ status_code response < 600)) as [Herr|Hok].
    + by rewrite _handle_response_error in Hret.
    + split; [done |]. rewrite _handle_response_no_error in Hret by done.
      unfold json in Hret. destruct (content response); by simplify_eq.
  - intros [Hok Hbody]. rewrite _handle_response_no_error by done.
    unfold json. by rewrite Hbody.
Qed.

(** X6.  Among the error statuses the outcome tells the status and nothing
    else: two error responses raise the same exception exactly when their
    status codes are equal, whatever their bodies, reasons and URLs. *)
Theorem error_outcome_tells_status response1 response2 w1 w2 :
  400 ≤ status_code response1 < 600 →
  400 ≤ status_code response2 < 600 →
  fst (_handle_response response1 w1) = fst (_handle_response response2 w2)
  ↔ status_code response1 = status_code response2.
Proof.
  intros Herr1 Herr2. rewrite !_handle_response_error by done. split.
  - intros [= Hmsg]. revert Hmsg.
    repeat case_bool_decide; intros Hmsg; try congruence.
    all: try (exfalso; unfold String.append in Hmsg; simpl in Hmsg; discriminate).
    apply String.app_inj in Hmsg. by apply (inj pretty) in Hmsg.
  - by intros ->.
Qed.

Lemma error_outcome_tells_status_witness :
  fst (_handle_response server_error_response example_client)
  = fst (_handle_response
           (respond 500 "Server Error" designs_url (RawBody "<html>oops</html>"))
           (new_world "" ""))
  ↔ status_code server_error_response
    = status_code (respond 500 "Server Error" designs_url (RawBody "<html>oops</html>")).
Proof.
  apply (error_outcome_tells_status server_error_response
           (respond 500 "Server Error" designs_url (RawBody "<html>oops</html>")));
    simpl; lia.
Defined.
